(** * HRM Connect: the signal-processing core, embedded and verified

    The development follows the TypeScript sources of the repository:
    - [utils/stats.ts]          ([StatsCalculator]),
    - [utils/advancedStats.ts]  ([AdvancedStatsCalculator]),
    - [utils/readiness.ts]      ([calculateReadiness]),
    - [utils/recovery.ts]       ([calculateRecoveryScore], [buildTrendData],
                                 [getTrendDirection]).

    JavaScript numbers are modelled by exact rationals extended with the
    three special values of IEEE arithmetic ([PInf], [NInf], [NaN]); the
    rounding error of binary64 and the sign of zero are outside the model.
    Values that enter the core from outside (RR intervals, heart rates,
    persisted statistics) are finite, hence of type [Q]; values computed by
    the code are of type [number], so that a division by zero shows up as
    an infinity or a [NaN] exactly where the code would produce one.
    Wall-clock reads ([Date.now()]) are explicit arguments. *)

From Stdlib Require Import ZArith QArith Qround Qabs Qminmax Lia Lqa List.
From Stdlib Require Import Reals Qreals.
From Stdlib Require Lra.
From stdpp Require Import gmap strings pretty.
Import ListNotations.

Local Open Scope Q_scope.

(** ** JavaScript numbers *)

Module JS.

Inductive number : Type :=
| Fin (q : Q)
| PInf
| NInf
| NaN.

Definition zero : number := Fin 0.
Definition of_Z (z : Z) : number := Fin (inject_Z z).
Definition of_nat (n : nat) : number := of_Z (Z.of_nat n).

Definition is_finite (x : number) : Prop :=
  match x with Fin _ => True | _ => False end.

(** Sign of a number: [Gt] positive, [Lt] negative, [Eq] zero or [NaN]. *)
Definition sign (x : number) : comparison :=
  match x with
  | Fin a => (Qnum a ?= 0)%Z
  | PInf => Gt
  | NInf => Lt
  | NaN => Eq
  end.

Definition sign_mul (s t : comparison) : comparison :=
  match s, t with
  | Eq, _ | _, Eq => Eq
  | Gt, Gt | Lt, Lt => Gt
  | _, _ => Lt
  end.

Definition inf_of (s : comparison) : number :=
  match s with Gt => PInf | Lt => NInf | Eq => NaN end.

Definition neg (x : number) : number :=
  match x with
  | Fin a => Fin (- a)
  | PInf => NInf
  | NInf => PInf
  | NaN => NaN
  end.

Definition add (x y : number) : number :=
  match x, y with
  | Fin a, Fin b => Fin (a + b)
  | NaN, _ | _, NaN => NaN
  | PInf, NInf | NInf, PInf => NaN
  | PInf, _ | _, PInf => PInf
  | NInf, _ | _, NInf => NInf
  end.

Definition sub (x y : number) : number := add x (neg y).

Definition mul (x y : number) : number :=
  match x, y with
  | Fin a, Fin b => Fin (a * b)
  | NaN, _ | _, NaN => NaN
  | _, _ => inf_of (sign_mul (sign x) (sign y))
  end.

(** [x / y]: a finite non-zero number over zero is an infinity, [0 / 0] is
    [NaN], a finite number over an infinity is zero. *)
Definition div (x y : number) : number :=
  match x, y with
  | NaN, _ | _, NaN => NaN
  | Fin a, Fin b => if Qeq_bool b 0 then inf_of (sign x) else Fin (a / b)
  | Fin _, _ => Fin 0
  | _, Fin b => inf_of (sign_mul (sign x) (if Qle_bool 0 b then Gt else Lt))
  | _, _ => NaN
  end.

(** Ordering; [None] when a [NaN] is involved, so that every comparison
    with [NaN] is false. *)
Definition cmp (x y : number) : option comparison :=
  match x, y with
  | NaN, _ | _, NaN => None
  | Fin a, Fin b => Some (a ?= b)
  | PInf, PInf | NInf, NInf => Some Eq
  | PInf, _ | _, NInf => Some Gt
  | NInf, _ | _, PInf => Some Lt
  end.

Definition gt (x y : number) : bool :=
  match cmp x y with Some Gt => true | _ => false end.
Definition lt (x y : number) : bool :=
  match cmp x y with Some Lt => true | _ => false end.
Definition ge (x y : number) : bool :=
  match cmp x y with Some Gt | Some Eq => true | _ => false end.
Definition le (x y : number) : bool :=
  match cmp x y with Some Lt | Some Eq => true | _ => false end.
Definition strict_eq (x y : number) : bool :=
  match cmp x y with Some Eq => true | _ => false end.

(** [Math.min], [Math.max] of two arguments. *)
Definition Math_min (x y : number) : number :=
  match cmp x y with
  | None => NaN
  | Some Gt => y
  | Some _ => x
  end.

Definition Math_max (x y : number) : number :=
  match cmp x y with
  | None => NaN
  | Some Lt => y
  | Some _ => x
  end.

(** [Math.min(...xs)] and [Math.max(...xs)]: the spread call folds over the
    arguments starting from the neutral infinity. *)
Definition Math_min_list (xs : list number) : number := fold_left Math_min xs PInf.
Definition Math_max_list (xs : list number) : number := fold_left Math_max xs NInf.

Definition Math_floor (x : number) : number :=
  match x with Fin a => of_Z (Qfloor a) | _ => x end.

(** [Math.round]: nearest integer, ties towards positive infinity. *)
Definition round_half_up (a : Q) : Z := Qfloor (a + (1 # 2)).

Definition Math_round (x : number) : number :=
  match x with Fin a => of_Z (round_half_up a) | _ => x end.

Definition Math_abs (x : number) : number :=
  match x with Fin a => Fin (Qabs a) | NaN => NaN | _ => PInf end.

(** [Math.pow(x, 2)]. *)
Definition Math_pow2 (x : number) : number := mul x x.

(** [x || d] on numbers: [0] and [NaN] are falsy. *)
Definition or_else (x d : number) : number :=
  match x with
  | NaN => d
  | Fin a => if Qeq_bool a 0 then d else x
  | _ => x
  end.

(** Strict order on finite operands, as a boolean. *)
Definition Qltb (a b : Q) : bool := negb (Qle_bool b a).

(** [xs.reduce((a, b) => a + b, 0)]. *)
Definition sum (xs : list number) : number := fold_left add xs zero.

(** [Math.round(Math.sqrt(x))].  The square root of a rational is in general
    irrational, so it has no value of its own in the model; the source only
    ever uses it under [Math.round], and the composite is an integer that is
    computed exactly: [floor (sqrt a + 1/2) = (floor (sqrt (4 a)) + 1) / 2].
    [JSFacts.Math_round_sqrt_real] relates it to the square root of the
    real numbers. *)
Definition round_sqrt_Q (a : Q) : Z := (Z.sqrt (Qfloor (4 * a)) + 1) / 2.

Definition Math_round_sqrt (x : number) : number :=
  match x with
  | Fin a => if Qle_bool 0 a then of_Z (round_sqrt_Q a) else NaN
  | PInf => PInf
  | _ => NaN
  end.

End JS.

Import JS.

(** ** utils/stats.ts: the running statistics engine *)

Module Stats.

Record SessionStats : Type := {
  minHr : number;
  maxHr : number;
  avgHr : number;
  sdnn : number;      (* standard deviation of the NN intervals *)
  rmssd : number;     (* root mean square of successive differences *)
  duration : number;  (* seconds *)
}.

(** The fields of a [StatsCalculator] instance. *)
Record StatsCalculator : Type := {
  heartRates : list Q;
  rrIntervals : list Q;   (* milliseconds *)
  startTime : Z;
}.

(** The state of a freshly constructed instance. *)
Definition init : StatsCalculator :=
  {| heartRates := []; rrIntervals := []; startTime := 0 |}.

Definition reset (now : Z) (c : StatsCalculator) : StatsCalculator :=
  {| heartRates := []; rrIntervals := []; startTime := now |}.

(** [addReading(hr, rrs?)]: an absent [rrs] is [None]; an array, even an
    empty one, is truthy. *)
Definition addReading (now : Z) (hr : Q) (rrs : option (list Q))
    (c : StatsCalculator) : StatsCalculator :=
  {| heartRates := heartRates c ++ [hr];
     rrIntervals :=
       match rrs with
       | Some l => rrIntervals c ++ l
       | None => rrIntervals c
       end;
     startTime :=
       if Nat.eqb (length (heartRates c)) 0 then now else startTime c |}.

(** The loop [for (i = 1; i < length; i++)] that accumulates
    [Math.pow(rr[i] - rr[i-1], 2)]; [prev] is [rr[i-1]]. *)
Fixpoint sumSquaredDiffs (prev : number) (rest : list number) (acc : number)
    : number :=
  match rest with
  | [] => acc
  | x :: rest' =>
      sumSquaredDiffs x rest' (add acc (Math_pow2 (sub x prev)))
  end.

Definition sdnn_of (rr : list Q) : number :=
  let n := of_nat (length rr) in
  let meanRR := div (sum (map Fin rr)) n in
  let squaredDiffs := map (fun x => Math_pow2 (sub (Fin x) meanRR)) rr in
  let variance := div (sum squaredDiffs) n in
  Math_round_sqrt variance.

Definition rmssd_of (rr : list Q) : number :=
  let n := of_nat (length rr) in
  let sumSq :=
    match map Fin rr with
    | [] => zero
    | x0 :: rest => sumSquaredDiffs x0 rest zero
    end in
  Math_round_sqrt (div sumSq (sub n (of_Z 1))).

Definition getStats (now : Z) (c : StatsCalculator) : SessionStats :=
  if Nat.eqb (length (heartRates c)) 0 then
    {| minHr := zero; maxHr := zero; avgHr := zero;
       sdnn := zero; rmssd := zero; duration := zero |}
  else
    let hrs := map Fin (heartRates c) in
    let hrv := Nat.ltb 1 (length (rrIntervals c)) in
    {| minHr := Math_min_list hrs;
       maxHr := Math_max_list hrs;
       avgHr := Math_round (div (sum hrs) (of_nat (length hrs)));
       sdnn := if hrv then sdnn_of (rrIntervals c) else zero;
       rmssd := if hrv then rmssd_of (rrIntervals c) else zero;
       duration :=
         Math_floor (div (of_Z (now - startTime c)) (of_Z 1000)) |}.

(** The calls a client can make on an instance, each at its wall-clock
    time. *)
Inductive call : Type :=
| Reset (now : Z)
| AddReading (now : Z) (hr : Q) (rrs : option (list Q)).

Definition step (c : StatsCalculator) (k : call) : StatsCalculator :=
  match k with
  | Reset now => reset now c
  | AddReading now hr rrs => addReading now hr rrs c
  end.

Definition run (ks : list call) : StatsCalculator := fold_left step ks init.

End Stats.

(** ** utils/advancedStats.ts: pNN50, stress index and spectral analysis *)

Module AdvancedStats.

(** The object literal [{ lf, hf, lfHfRatio, respirationRate }] returned by
    [calculateFrequencyDomain] and held in the cache. *)
Record FrequencyDomain : Type := {
  fd_lf : number;
  fd_hf : number;
  fd_lfHfRatio : number;
  fd_respirationRate : number;
}.

Record AdvancedStats : Type := {
  pnn50 : number;
  stressIndex : number;
  lf : number;
  hf : number;
  lfHfRatio : number;
  respirationRate : number;
}.

(** The fields of an [AdvancedStatsCalculator] instance. *)
Record AdvancedStatsCalculator : Type := {
  rrIntervals : list Q;
  cachedFrequencyDomain : FrequencyDomain;
  lastFrequencyCalculation : Z;
}.

Definition FREQUENCY_CALCULATION_INTERVAL_MS : Z := 5000.

Definition zeroFrequencyDomain : FrequencyDomain :=
  {| fd_lf := zero; fd_hf := zero; fd_lfHfRatio := zero;
     fd_respirationRate := zero |}.

Definition init : AdvancedStatsCalculator :=
  {| rrIntervals := [];
     cachedFrequencyDomain := zeroFrequencyDomain;
     lastFrequencyCalculation := 0 |}.

Definition addRRIntervals (rrs : list Q) (c : AdvancedStatsCalculator)
    : AdvancedStatsCalculator :=
  {| rrIntervals := rrIntervals c ++ rrs;
     cachedFrequencyDomain := cachedFrequencyDomain c;
     lastFrequencyCalculation := lastFrequencyCalculation c |}.

Definition reset (c : AdvancedStatsCalculator) : AdvancedStatsCalculator :=
  init.

(** *** pNN50 *)

(** The counting loop of [calculatePNN50]; [prev] is [rr[i-1]]. *)
Fixpoint countNN50 (prev : Q) (rest : list Q) (nn50 : nat) : nat :=
  match rest with
  | [] => nn50
  | x :: rest' =>
      let diff := Math_abs (sub (Fin x) (Fin prev)) in
      countNN50 x rest' (if gt diff (of_Z 50) then S nn50 else nn50)
  end.

Definition calculatePNN50 (rr : list Q) : number :=
  let nn50 := match rr with [] => O | x0 :: rest => countNN50 x0 rest O end in
  mul (div (of_nat nn50) (sub (of_nat (length rr)) (of_Z 1))) (of_Z 100).

(** *** Baevsky stress index *)


Fixpoint bump (k : Z) (bins : list (Z * nat)) : list (Z * nat) :=
  match bins with
  | [] => [(k, 1%nat)]
  | (k', c) :: rest =>
      if Z.eqb k k' then (k', S c) :: rest else (k', c) :: bump k rest
  end.

(** Property keys that are array indices are enumerated first, in
    ascending numeric order; every other key follows in insertion order. *)
Definition is_array_index (k : Z) : bool :=
  ((0 <=? k) && (k <? 2 ^ 32 - 1))%Z.

Fixpoint insert_by_key (e : Z * nat) (sorted : list (Z * nat))
    : list (Z * nat) :=
  match sorted with
  | [] => [e]
  | e' :: rest =>
      if (fst e <? fst e')%Z then e :: sorted
      else e' :: insert_by_key e rest
  end.

Definition Object_entries (bins : list (Z * nat)) : list (Z * nat) :=
  fold_right insert_by_key []
    (List.filter (fun e => is_array_index (fst e)) bins)
  ++ List.filter (fun e => negb (is_array_index (fst e))) bins.

(** One step of the [forEach]: track the extremes and fill the bin
    [Math.round(rr / 50) * 50]. *)
Definition binSize : Z := 50.

Definition bin_of (rr : Q) : Z :=
  (round_half_up (rr / inject_Z binSize) * binSize)%Z.

Definition scan_rr (st : number * number * list (Z * nat)) (rr : Q)
    : number * number * list (Z * nat) :=
  let '(minRR, maxRR, bins) := st in
  (if lt (Fin rr) minRR then Fin rr else minRR,
   if gt (Fin rr) maxRR then Fin rr else maxRR,
   bump (bin_of rr) bins).

(** The [for ... of Object.entries(bins)] loop selecting the mode. *)
Definition pick_mode (st : nat * Z) (e : Z * nat) : nat * Z :=
  let '(maxCount, mode) := st in
  if (maxCount <? snd e)%nat then (snd e, fst e) else st.

Definition calculateStressIndex (rr : list Q) : number :=
  if (length rr <? 30)%nat then zero
  else
    let '(minRR, maxRR, bins) := fold_left scan_rr rr (PInf, NInf, []) in
    let total := of_nat (length rr) in
    let '(maxCount, mode) := fold_left pick_mode (Object_entries bins) (O, 0%Z) in
    let AMo := mul (div (of_nat maxCount) total) (of_Z 100) in
    let Mo := div (of_Z mode) (of_Z 1000) in
    let MxDMn := div (sub maxRR minRR) (of_Z 1000) in
    if strict_eq MxDMn zero || strict_eq Mo zero then zero
    else Math_round (div AMo (mul (mul (of_Z 2) Mo) MxDMn)).

(** *** Frequency domain *)

(** Step 1, resampling at 4 Hz.  Every operand is finite and every divisor
    a non-zero constant, so the arithmetic is the rational one.
    [advance] is the inner [while] loop: it drops the intervals that end
    before [t]; [rest] is [rrIntervals.slice(rrIndex)]. *)
Definition samplingRate : Z := 4.

Fixpoint advance (rest : list Q) (currentRRStartTime t : Q) : list Q * Q :=
  match rest with
  | [] => ([], currentRRStartTime)
  | rr :: rest' =>
      if Qltb (currentRRStartTime + rr / 1000) t
      then advance rest' (currentRRStartTime + rr / 1000) t
      else (rest, currentRRStartTime)
  end.

(** The outer [for] loop, with [k] iterations left and loop variable [i]. *)
Fixpoint resample (k : nat) (i : Z) (rest : list Q) (currentRRStartTime : Q)
    : list Q :=
  match k with
  | O => []
  | S k' =>
      let t := inject_Z i / inject_Z samplingRate in
      let '(rest', start') := advance rest currentRRStartTime t in
      match rest' with
      | rr :: _ => rr :: resample k' (i + 1) rest' start'
      | [] => resample k' (i + 1) rest' start'
      end
  end.

Definition interpolate (rr : list Q) : list Q :=
  let durationSec := fold_left Qplus rr 0 / 1000 in
  let numSamples := Qfloor (durationSec * inject_Z samplingRate) in
  resample (Z.to_nat numSamples) 0 rr 0.

(** Step 4, band integration over the bins [0 .. n/2 - 1] of the spectrum
    [out] (interleaved real and imaginary parts). *)
Definition fftSize : Z := 1024.

Record bands : Type := {
  lfPower : number;
  hfPower : number;
  maxHfPower : number;
  peakHfFreq : Q;
}.

Definition integrate_bin (out : list number) (b : bands) (i : nat) : bands :=
  let resolution := inject_Z samplingRate / inject_Z fftSize in
  let freq := inject_Z (Z.of_nat i) * resolution in
  let real := nth (2 * i) out NaN in
  let imag := nth (2 * i + 1) out NaN in
  let power := add (mul real real) (mul imag imag) in
  let lfP :=
    if Qle_bool (4 # 100) freq && Qltb freq (15 # 100)
    then add (lfPower b) power else lfPower b in
  if Qle_bool (15 # 100) freq && Qltb freq (4 # 10) then
    let peak := gt power (maxHfPower b) in
    {| lfPower := lfP;
       hfPower := add (hfPower b) power;
       maxHfPower := if peak then power else maxHfPower b;
       peakHfFreq := if peak then freq else peakHfFreq b |}
  else
    {| lfPower := lfP; hfPower := hfPower b;
       maxHfPower := maxHfPower b; peakHfFreq := peakHfFreq b |}.

Definition integrate (out : list number) : bands :=
  fold_left (integrate_bin out) (seq 0 (Z.to_nat (fftSize / 2)))
    {| lfPower := zero; hfPower := zero; maxHfPower := zero;
       peakHfFreq := 0 |}.

Section Spectrum.

(** Steps 2 and 3 lie outside the repository and outside rational
    arithmetic: the Hamming window (through [Math.cos]) and the 1024-point
    transform of [fft.js] ([realTransform] then [completeSpectrum]).
    [windowedSpectrum] maps the resampled series to the array [out]. *)
Variable windowedSpectrum : list Q -> list number.

Definition calculateFrequencyDomain (rr : list Q) : FrequencyDomain :=
  if (length rr <? 60)%nat then zeroFrequencyDomain
  else
    let out := windowedSpectrum (interpolate rr) in
    let b := integrate out in
    {| fd_lf := Math_round (lfPower b);
       fd_hf := Math_round (hfPower b);
       fd_lfHfRatio :=
         if gt (hfPower b) zero
         then div (Math_round (mul (div (lfPower b) (hfPower b)) (of_Z 100)))
                  (of_Z 100)
         else zero;
       fd_respirationRate :=
         if gt (maxHfPower b) zero
         then Math_round (mul (Fin (peakHfFreq b)) (of_Z 60))
         else zero |}.

(** [calculate()] at wall-clock time [now]: the result and the instance
    after the call. *)
Definition calculate (now : Z) (c : AdvancedStatsCalculator)
    : AdvancedStats * AdvancedStatsCalculator :=
  if (length (rrIntervals c) <? 2)%nat then
    ({| pnn50 := zero; stressIndex := zero; lf := zero; hf := zero;
        lfHfRatio := zero; respirationRate := zero |}, c)
  else
    let c' :=
      if (FREQUENCY_CALCULATION_INTERVAL_MS <? now - lastFrequencyCalculation c)%Z
      then {| rrIntervals := rrIntervals c;
              cachedFrequencyDomain := calculateFrequencyDomain (rrIntervals c);
              lastFrequencyCalculation := now |}
      else c in
    let fd := cachedFrequencyDomain c' in
    ({| pnn50 := calculatePNN50 (rrIntervals c);
        stressIndex := calculateStressIndex (rrIntervals c);
        lf := fd_lf fd; hf := fd_hf fd;
        lfHfRatio := fd_lfHfRatio fd;
        respirationRate := fd_respirationRate fd |}, c').

(** The calls a client can make on an instance. *)
Inductive call : Type :=
| AddRRIntervals (rrs : list Q)
| Calculate (now : Z)
| Reset.

Definition step (c : AdvancedStatsCalculator) (k : call)
    : AdvancedStatsCalculator :=
  match k with
  | AddRRIntervals rrs => addRRIntervals rrs c
  | Calculate now => snd (calculate now c)
  | Reset => reset c
  end.

Definition run (ks : list call) (c : AdvancedStatsCalculator)
    : AdvancedStatsCalculator :=
  fold_left step ks c.

End Spectrum.

End AdvancedStats.

(** ** utils/readiness.ts: session readiness *)

Module Readiness.

Inductive status : Type := poor | fair | good | excellent.

Record factor : Type := {
  value : number;
  contribution : number;
  label : string;
}.

Record ReadinessResult : Type := {
  score : number;
  result_status : status;
  color : string;
  recommendation : string;
  factor_rmssd : factor;
  factor_restingHR : factor;
  factor_hrv : factor;
}.

Record PersonalBaseline : Type := {
  avgRmssd : number;
  avgRestingHR : number;
  avgSdnn : number;
}.

Definition DEFAULT_BASELINE : PersonalBaseline :=
  {| avgRmssd := of_Z 40; avgRestingHR := of_Z 65; avgSdnn := of_Z 50 |}.

(** [Math.min(100, Math.max(0, ratio * 100))]. *)
Definition percent_score (ratio : number) : number :=
  Math_min (of_Z 100) (Math_max zero (mul ratio (of_Z 100))).

Definition high_label (s : number) : string :=
  if ge s (of_Z 100) then "Above baseline"
  else if ge s (of_Z 70) then "Near baseline" else "Below baseline".

Definition low_label (s : number) : string :=
  if ge s (of_Z 100) then "Below baseline"
  else if ge s (of_Z 70) then "Near baseline" else "Above baseline".

Definition calculateReadiness (stats : Stats.SessionStats)
    (advancedStats : AdvancedStats.AdvancedStats) (baseline : PersonalBaseline)
    : ReadinessResult :=
  let rmssdRatio :=
    if gt (AdvancedStats.pnn50 advancedStats) zero
    then div (Stats.rmssd stats) (avgRmssd baseline) else zero in
  let rmssdScore := percent_score rmssdRatio in
  let rmssdContribution := mul rmssdScore (Fin (40 # 100)) in
  let hrRatio :=
    if gt (Stats.avgHr stats) zero
    then div (avgRestingHR baseline) (Stats.avgHr stats) else zero in
  let hrScore := percent_score hrRatio in
  let hrContribution := mul hrScore (Fin (35 # 100)) in
  let sdnnRatio :=
    if gt (Stats.sdnn stats) zero
    then div (Stats.sdnn stats) (avgSdnn baseline) else zero in
  let sdnnScore := percent_score sdnnRatio in
  let sdnnContribution := mul sdnnScore (Fin (25 # 100)) in
  let totalScore :=
    Math_round (add (add rmssdContribution hrContribution) sdnnContribution) in
  let '(st, col, rec) :=
    if ge totalScore (of_Z 80) then
      (excellent, "#22c55e",
       "Great recovery! You're ready for high-intensity training.")
    else if ge totalScore (of_Z 60) then
      (good, "#84cc16", "Good recovery. Normal training is recommended.")
    else if ge totalScore (of_Z 40) then
      (fair, "#eab308", "Moderate recovery. Consider lighter training today.")
    else
      (poor, "#ef4444",
       "Low recovery detected. Rest or very light activity recommended.") in
  {| score := totalScore;
     result_status := st;
     color := col;
     recommendation := rec;
     factor_rmssd :=
       {| value := Stats.rmssd stats;
          contribution := Math_round rmssdContribution;
          label := high_label rmssdScore |};
     factor_restingHR :=
       {| value := Stats.avgHr stats;
          contribution := Math_round hrContribution;
          label := low_label hrScore |};
     factor_hrv :=
       {| value := Stats.sdnn stats;
          contribution := Math_round sdnnContribution;
          label := high_label sdnnScore |} |}.

(** [calculateReadiness(stats, advancedStats)]: the default argument. *)
Definition calculateReadiness_default (stats : Stats.SessionStats)
    (advancedStats : AdvancedStats.AdvancedStats) : ReadinessResult :=
  calculateReadiness stats advancedStats DEFAULT_BASELINE.

Definition getQuickReadiness (rmssd restingHR : number) : number :=
  let rmssdScore :=
    Math_min (of_Z 100) (mul (div rmssd (of_Z 50)) (of_Z 100)) in
  let hrScore :=
    Math_min (of_Z 100) (mul (div (of_Z 60) restingHR) (of_Z 100)) in
  Math_round (add (mul rmssdScore (Fin (6 # 10))) (mul hrScore (Fin (4 # 10)))).

End Readiness.

(** ** services/storage.ts: the persisted entities read by the scores *)

Module Storage.

Inductive testType : Type := regular | morning.

Record Session : Type := {
  id : string;
  startTime : Z;                 (* epoch milliseconds *)
  endTime : Z;
  hrData : list (Z * number);    (* time, hr *)
  rrIntervals : list Q;
  stats : Stats.SessionStats;
  advancedStats : AdvancedStats.AdvancedStats;
  session_testType : option testType;
}.

Record MorningTestResult : Type := {
  test_id : option string;
  timestamp : Z;                 (* epoch milliseconds *)
  lyingAvgHr : number;
  standingAvgHr : number;
  hrDelta : number;
  lyingRMSSD : number;
  standingRMSSD : number;
  readinessScore : number;
}.

End Storage.

(** ** utils/recovery.ts: recovery score and trends *)

Module Recovery.

Import Storage.

Inductive zone : Type := zone_poor | zone_moderate | zone_good.

Record factors : Type := {
  hrvBaseline : number;      (* 0-25 *)
  restingHrTrend : number;   (* 0-25 *)
  stressHistory : number;    (* 0-25 *)
  consistency : number;      (* 0-25 *)
}.

Record RecoveryData : Type := {
  score : number;            (* 0-100 *)
  data_zone : zone;
  color : string;
  label : string;
  data_factors : factors;
}.

Record TrendPoint : Type := {
  date : string;
  point_timestamp : Z;
  rmssd : number;
  sdnn : number;
  stressScore : number;
  recoveryScore : number;
  avgHr : number;
}.

Inductive direction : Type := improving | declining | stable.

Definition msPerDay : Z := 86400000.

Definition is_positive (v : number) : bool := gt v zero.

(** [xs.reduce((a, b) => a + b, 0) / xs.length]. *)
Definition average (xs : list number) : number :=
  div (sum xs) (of_nat (length xs)).

(** [new Set(xs).size]. *)
Definition Set_size (xs : list string) : nat :=
  size (list_to_set xs : gset string).

Definition noData : RecoveryData :=
  {| score := zero; data_zone := zone_poor; color := "#ef4444";
     label := "No Data";
     data_factors :=
       {| hrvBaseline := zero; restingHrTrend := zero;
          stressHistory := zero; consistency := zero |} |}.

Section Calendar.

(** [new Date(ms).toDateString()] and
    [new Date(ms).toLocaleDateString('en-US', {month: 'short', day: 'numeric'})]
    depend on the time zone of the host; they are parameters. *)
Variable toDateString : Z -> string.
Variable toLocaleDateString : Z -> string.

Definition recent (cutoff : Z) (t : Z) : bool := (cutoff <=? t)%Z.

Definition calculateRecoveryScore (now : Z) (sessions : list Session)
    (morningTests : list MorningTestResult) (days : Z) : RecoveryData :=
  let cutoff := (now - days * msPerDay)%Z in
  let recentSessions := List.filter (fun s => recent cutoff (startTime s)) sessions in
  let recentTests := List.filter (fun t => recent cutoff (timestamp t)) morningTests in
  if Nat.eqb (length recentSessions) 0 && Nat.eqb (length recentTests) 0
  then noData
  else
    (* 1. HRV baseline comparison *)
    let allRmssd := List.filter is_positive (map (fun s => Stats.rmssd (stats s)) sessions) in
    let allSdnn := List.filter is_positive (map (fun s => Stats.sdnn (stats s)) sessions) in
    let baselineRmssd :=
      if (0 <? length allRmssd)%nat then average allRmssd else of_Z 40 in
    let baselineSdnn :=
      if (0 <? length allSdnn)%nat then average allSdnn else of_Z 50 in
    let recentRmssd :=
      if (0 <? length recentSessions)%nat
      then average (map (fun s => Stats.rmssd (stats s)) recentSessions)
      else if (0 <? length recentTests)%nat
           then average (map lyingRMSSD recentTests)
           else zero in
    let recentSdnn :=
      if (0 <? length recentSessions)%nat
      then average (map (fun s => Stats.sdnn (stats s)) recentSessions)
      else zero in
    let rmssdRatio :=
      if is_positive baselineRmssd
      then Math_min (div recentRmssd baselineRmssd) (Fin (15 # 10)) else zero in
    let sdnnRatio :=
      if is_positive baselineSdnn
      then Math_min (div recentSdnn baselineSdnn) (Fin (15 # 10)) else zero in
    let hrvScore :=
      Math_min (of_Z 25)
        (Math_round
           (mul (div (add (mul rmssdRatio (Fin (6 # 10)))
                          (mul sdnnRatio (Fin (4 # 10))))
                     (Fin (15 # 10)))
                (of_Z 25))) in
    (* 2. Resting HR trend *)
    let recentHrs :=
      List.filter is_positive (map (fun s => Stats.avgHr (stats s)) recentSessions) in
    let morningHrs := List.filter is_positive (map lyingAvgHr recentTests) in
    let allRecentHr := recentHrs ++ morningHrs in
    let avgRecentHr :=
      if (0 <? length allRecentHr)%nat then average allRecentHr else of_Z 70 in
    let baselineHr :=
      if (0 <? length sessions)%nat
      then div (sum (List.filter is_positive
                       (map (fun s => Stats.avgHr (stats s)) sessions)))
               (of_nat (length
                  (List.filter (fun s => is_positive (Stats.avgHr (stats s))) sessions)))
      else of_Z 70 in
    let hrRatio :=
      if is_positive avgRecentHr
      then Math_min (div baselineHr avgRecentHr) (Fin (13 # 10)) else zero in
    let hrScore :=
      Math_min (of_Z 25)
        (Math_round (mul (div hrRatio (Fin (13 # 10))) (of_Z 25))) in
    (* 3. Stress history *)
    let recentStress :=
      List.filter is_positive
        (map (fun s => AdvancedStats.stressIndex (advancedStats s))
             recentSessions) in
    let stressScore :=
      if (0 <? length recentStress)%nat then
        let avgStress := average recentStress in
        Math_min (of_Z 25)
          (Math_max zero
             (Math_round
                (mul (of_Z 25)
                     (sub (of_Z 1)
                          (Math_min (div avgStress (of_Z 400)) (of_Z 1))))))
      else of_Z 20 in
    (* 4. Session consistency *)
    let uniqueDays :=
      Set_size (map (fun s => toDateString (startTime s)) recentSessions) in
    let testDays :=
      Set_size (map (fun t => toDateString (timestamp t)) recentTests) in
    let totalActiveDays :=
      Math_min (of_nat (uniqueDays + testDays)) (of_Z days) in
    let consistencyRatio :=
      div totalActiveDays (Math_min (of_Z days) (of_Z 7)) in
    let consistencyScore :=
      Math_min (of_Z 25) (Math_round (mul consistencyRatio (of_Z 25))) in
    let totalScore :=
      Math_min (of_Z 100)
        (add (add (add hrvScore hrScore) stressScore) consistencyScore) in
    let '(z, col, lab) :=
      if ge totalScore (of_Z 67) then (zone_good, "#22c55e", "Good Recovery")
      else if ge totalScore (of_Z 34) then (zone_moderate, "#eab308", "Moderate")
      else (zone_poor, "#ef4444", "Poor Recovery") in
    {| score := totalScore;
       data_zone := z; color := col; label := lab;
       data_factors :=
         {| hrvBaseline := hrvScore;
            restingHrTrend := hrScore;
            stressHistory := stressScore;
            consistency := consistencyScore |} |}.

(** The [Map] keyed by date string, in insertion order.  [group_add] is
    [if (!byDate.has(date)) byDate.set(date, {sessions: [], tests: []})]
    followed by the [push] into the entry. *)
Definition day_entry : Type := string * (list Session * list MorningTestResult).

Fixpoint group_add (d : string)
    (push : list Session * list MorningTestResult ->
            list Session * list MorningTestResult)
    (byDate : list day_entry) : list day_entry :=
  match byDate with
  | [] => [(d, push ([], []))]
  | (d', e) :: rest =>
      if String.eqb d d' then (d', push e) :: rest
      else (d', e) :: group_add d push rest
  end.

Definition add_session (cutoff : Z) (byDate : list day_entry) (s : Session)
    : list day_entry :=
  if (startTime s <? cutoff)%Z then byDate
  else group_add (toLocaleDateString (startTime s))
         (fun e => (fst e ++ [s], snd e)) byDate.

Definition add_test (cutoff : Z) (byDate : list day_entry)
    (t : MorningTestResult) : list day_entry :=
  if (timestamp t <? cutoff)%Z then byDate
  else group_add (toLocaleDateString (timestamp t))
         (fun e => (fst e, snd e ++ [t])) byDate.

(** [ss[0]?.startTime ?? ts[0]?.timestamp ?? 0]. *)
Definition first_time (e : list Session * list MorningTestResult) : Z :=
  match fst e with
  | s :: _ => startTime s
  | [] => match snd e with t :: _ => timestamp t | [] => 0%Z end
  end.

(** [Array.prototype.sort] is stable; the comparator is [aTime - bTime]. *)
Fixpoint insert_by_time (x : day_entry) (sorted : list day_entry)
    : list day_entry :=
  match sorted with
  | [] => [x]
  | y :: rest =>
      if (first_time (snd x) <? first_time (snd y))%Z then x :: sorted
      else y :: insert_by_time x rest
  end.

Definition sort_by_time (entries : list day_entry) : list day_entry :=
  fold_left (fun acc x => insert_by_time x acc) entries [].

(** [Math.round(total / n * 10) / 10]. *)
Definition round1 (total : number) (n : nat) : number :=
  div (Math_round (mul (div total (of_nat n)) (of_Z 10))) (of_Z 10).

(** The callback of [entries.map]; [nowInner] is the clock read by the
    nested [calculateRecoveryScore] call. *)
Definition trend_point (nowInner : Z) (sessions : list Session)
    (morningTests : list MorningTestResult) (e : day_entry) : TrendPoint :=
  let ss := fst (snd e) in
  let ts := snd (snd e) in
  let total {A} (f : A -> number) (l : list A) :=
    fold_left (fun a x => add a (f x)) l zero in
  let rmssd :=
    if (0 <? length ss)%nat
    then round1 (total (fun s => Stats.rmssd (stats s)) ss) (length ss)
    else if (0 <? length ts)%nat
         then round1 (total lyingRMSSD ts) (length ts) else zero in
  let sdnn :=
    if (0 <? length ss)%nat
    then round1 (total (fun s => Stats.sdnn (stats s)) ss) (length ss)
    else zero in
  let stressScore :=
    if (0 <? length ss)%nat
    then Math_round
           (div (total (fun s => AdvancedStats.stressIndex (advancedStats s)) ss)
                (of_nat (length ss)))
    else zero in
  let avgHr :=
    if (0 <? length ss)%nat
    then Math_round
           (div (total (fun s => Stats.avgHr (stats s)) ss) (of_nat (length ss)))
    else if (0 <? length ts)%nat
         then Math_round (div (total lyingAvgHr ts) (of_nat (length ts)))
         else zero in
  (* Mini recovery calc for this day *)
  let dayRecovery := calculateRecoveryScore nowInner sessions morningTests 1 in
  {| date := fst e;
     point_timestamp := first_time (snd e);
     rmssd := rmssd;
     sdnn := sdnn;
     stressScore := stressScore;
     recoveryScore := score dayRecovery;
     avgHr := avgHr |}.

(** [buildTrendData]: [now] is the clock read at entry, [nowAt i] the clock
    read while the point of index [i] is built. *)
Definition buildTrendData (now : Z) (nowAt : nat -> Z)
    (sessions : list Session) (morningTests : list MorningTestResult)
    (days : Z) : list TrendPoint :=
  let cutoff := (now - days * msPerDay)%Z in
  let byDate := fold_left (add_session cutoff) sessions [] in
  let byDate := fold_left (add_test cutoff) morningTests byDate in
  let entries := sort_by_time byDate in
  imap (fun i e => trend_point (nowAt i) sessions morningTests e) entries.

End Calendar.

(** [getTrendDirection]; [relative_change] is the local [change]. *)
Definition relative_change (values : list number) : number :=
  let half := Nat.div (length values) 2 in
  let firstHalf := firstn half values in
  let secondHalf := skipn half values in
  let avg1 := average firstHalf in
  let avg2 := average secondHalf in
  mul (div (sub avg2 avg1) (or_else avg1 (of_Z 1))) (of_Z 100).

Definition getTrendDirection (values : list number) : direction :=
  if (length values <? 2)%nat then stable
  else
    let change := relative_change values in
    if gt change (of_Z 5) then improving
    else if lt change (of_Z (-5)) then declining
    else stable.

End Recovery.

(** ** The quantities named by the specification

    These definitions follow the wording of the specification, not the
    code; the theorems below compare them with the code. *)

Module Spec.

Definition total (l : list Q) : Q := fold_right Qplus 0 l.





(** [n] is the square root of [v] rounded to the nearest integer, a tie
    going up: [n - 1/2 <= sqrt v < n + 1/2]. *)
Definition nearest_to_sqrt (v : Q) (n : Z) : Prop :=
  (0 <= n)%Z /\
  v < (inject_Z n + (1 # 2)) ^ 2 /\
  ((1 <= n)%Z -> (inject_Z n - (1 # 2)) ^ 2 <= v).

(** The same rounding stated on the real line, and the two statistics as
    real numbers: the population standard deviation and the root mean
    square. *)
Definition rounds_to (x : R) (n : Z) : Prop :=
  (IZR n - / 2 <= x < IZR n + / 2)%R.







(** Between a recomputation at time [t] and a later [calculate()], the
    client only adds intervals or calls [calculate()] within the throttle
    interval after [t]. *)
Definition within_throttle (t : Z) (k : AdvancedStats.call) : Prop :=
  match k with
  | AdvancedStats.AddRRIntervals _ => True
  | AdvancedStats.Calculate now =>
      (now - t <= AdvancedStats.FREQUENCY_CALCULATION_INTERVAL_MS)%Z
  | AdvancedStats.Reset => False
  end.


Definition cache_sound (c : AdvancedStats.AdvancedStatsCalculator) : Prop :=
  (length (AdvancedStats.rrIntervals c) < 60)%nat ->
  AdvancedStats.cachedFrequencyDomain c = AdvancedStats.zeroFrequencyDomain.

(** [stats] with its [rmssd] replaced. *)
Definition with_rmssd (st : Stats.SessionStats) (r : number)
    : Stats.SessionStats :=
  {| Stats.minHr := Stats.minHr st; Stats.maxHr := Stats.maxHr st;
     Stats.avgHr := Stats.avgHr st; Stats.sdnn := Stats.sdnn st;
     Stats.rmssd := r; Stats.duration := Stats.duration st |}.

(** The calendar days of the sessions and of the tests of a window. *)
Definition session_days (toDateString : Z -> string)
    (ss : list Storage.Session) : gset string :=
  list_to_set (map (fun s => toDateString (Storage.startTime s)) ss).

Definition test_days (toDateString : Z -> string)
    (ts : list Storage.MorningTestResult) : gset string :=
  list_to_set (map (fun t => toDateString (Storage.timestamp t)) ts).

(** The consistency sub-score that an activity count of [count] days
    earns in a window of [days] days. *)
Definition consistency_of (count : nat) (days : Z) : number :=
  Math_min (of_Z 25)
    (Math_round
       (mul (div (Math_min (of_nat count) (of_Z days))
                 (Math_min (of_Z days) (of_Z 7)))
            (of_Z 25))).

End Spec.

(** ** Concrete inputs

    A host whose calendar is UTC, with a date rendered as the number of
    the day since the epoch, and persisted entities with given times and
    statistics. *)

Module Examples.

Import Storage.

Definition utcDateString (t : Z) : string := pretty (t / Recovery.msPerDay)%Z.

Definition sessionStats (avgHr sdnn rmssd : Z) : Stats.SessionStats :=
  {| Stats.minHr := of_Z avgHr; Stats.maxHr := of_Z avgHr;
     Stats.avgHr := of_Z avgHr; Stats.sdnn := of_Z sdnn;
     Stats.rmssd := of_Z rmssd; Stats.duration := of_Z 300 |}.

Definition advanced (pnn50 stressIndex : Z) : AdvancedStats.AdvancedStats :=
  {| AdvancedStats.pnn50 := of_Z pnn50;
     AdvancedStats.stressIndex := of_Z stressIndex;
     AdvancedStats.lf := zero; AdvancedStats.hf := zero;
     AdvancedStats.lfHfRatio := zero; AdvancedStats.respirationRate := zero |}.

Definition session_at (t avgHr sdnn rmssd stressIndex : Z) : Session :=
  {| id := pretty t; startTime := t; endTime := (t + 300000)%Z;
     hrData := []; rrIntervals := [];
     stats := sessionStats avgHr sdnn rmssd;
     advancedStats := advanced 10 stressIndex;
     session_testType := Some regular |}.

Definition test_at (t : Z) : MorningTestResult :=
  {| test_id := None; timestamp := t;
     lyingAvgHr := of_Z 60; standingAvgHr := of_Z 75; hrDelta := of_Z 15;
     lyingRMSSD := of_Z 45; standingRMSSD := of_Z 30;
     readinessScore := of_Z 70 |}.

(** Hours and days in milliseconds. *)
Definition at_day (d h : Z) : Z := (d * Recovery.msPerDay + h * 3600000)%Z.

(** A spectrum with unit power in every bin. *)
Definition flatSpectrum (interpolated : list Q) : list number :=
  repeat (of_Z 1) 2048.

(** Series of RR intervals: constant, and alternating between two values. *)
Definition constant_series (n : nat) : list Q := repeat 800 n.

Definition alternating_series (n : nat) : list Q :=
  flat_map (fun _ => [800; 900]) (seq 0 n).

End Examples.

(** ** services/bluetooth.ts: the Heart Rate Measurement characteristic *)

Module Bluetooth.

Record HeartRateData : Type := {
  heartRate : Z;
  rrIntervals : option (list Q);       (* milliseconds; absent when none *)
  energyExpended : option number;
  contactDetected : option bool;
  timestamp : Z;
}.

(** A [DataView] is its bytes; a read outside the view throws a
    [RangeError], which is [None] here. *)
Definition byte_value (b : Byte.byte) : Z := Z.of_N (Byte.to_N b).

Definition getUint8 (value : list Byte.byte) (offset : nat) : option Z :=
  match nth_error value offset with
  | Some b => Some (byte_value b)
  | None => None
  end.

(** [getUint16(offset, true)]: little endian. *)
Definition getUint16 (value : list Byte.byte) (offset : nat) : option Z :=
  match nth_error value offset, nth_error value (S offset) with
  | Some lo, Some hi => Some (byte_value lo + 256 * byte_value hi)%Z
  | _, _ => None
  end.

(** The loop [while (offset + 2 <= value.byteLength)] over the bytes from
    [offset] on: each pair is one interval in units of 1/1024 s. *)
Fixpoint read_rrs (rest : list Byte.byte) : list Q :=
  match rest with
  | lo :: hi :: rest' =>
      (inject_Z (byte_value lo + 256 * byte_value hi) / 1024 * 1000)
      :: read_rrs rest'
  | _ => []
  end.

Definition parseHeartRate (now : Z) (value : list Byte.byte)
    : option HeartRateData :=
  match getUint8 value 0 with
  | None => None
  | Some flags =>
      let rate16Bits := Z.land flags 1 in
      let rate :=
        if Z.eqb rate16Bits 0
        then match getUint8 value 1 with
             | Some hr => Some (hr, 2%nat)
             | None => None
             end
        else match getUint16 value 1 with
             | Some hr => Some (hr, 3%nat)
             | None => None
             end in
      match rate with
      | None => None
      | Some (hr, offset) =>
          let rrs :=
            if Z.eqb (Z.land flags 16) 0 then []
            else read_rrs (skipn offset value) in
          Some {| heartRate := hr;
                  rrIntervals := if (0 <? length rrs)%nat then Some rrs else None;
                  energyExpended := None;
                  contactDetected := None;
                  timestamp := now |}
      end
  end.

End Bluetooth.

(** ** components/MorningTest.tsx: the morning readiness test *)

Module MorningTest.

(** [arr.length ? Math.round(sum / arr.length) : 0]. *)
Definition calcAvg (arr : list Q) : number :=
  if Nat.eqb (length arr) 0 then zero
  else Math_round (div (sum (map Fin arr)) (of_nat (length arr))).

(** The loop of [calcRMSSD]; [prev] is [intervals[i-1]]. *)
Fixpoint sumSquaredDiffs (prev : number) (rest : list number) (acc : number)
    : number :=
  match rest with
  | [] => acc
  | x :: rest' =>
      let diff := sub x prev in
      sumSquaredDiffs x rest' (add acc (mul diff diff))
  end.

Definition calcRMSSD (intervals : list Q) : number :=
  if (length intervals <? 2)%nat then zero
  else
    let sumSq :=
      match map Fin intervals with
      | [] => zero
      | x0 :: rest => sumSquaredDiffs x0 rest zero
      end in
    Math_round_sqrt (div sumSq (sub (of_nat (length intervals)) (of_Z 1))).

(** [Math.min(100, Math.max(0, x))]. *)
Definition clamp100 (x : number) : number :=
  Math_min (of_Z 100) (Math_max zero x).

Definition calcReadinessScore (lyingRMSSD lyingAvgHr standingAvgHr : number)
    : number :=
  let hrDelta := sub standingAvgHr lyingAvgHr in
  let rmssdScore := clamp100 (mul (sub lyingRMSSD (of_Z 10)) (Fin (15 # 10))) in
  let deltaScore :=
    clamp100 (sub (of_Z 100) (mul (sub hrDelta (of_Z 5)) (of_Z 3))) in
  let restingScore :=
    clamp100 (mul (sub (of_Z 90) lyingAvgHr) (Fin (25 # 10))) in
  Math_round
    (add (add (mul rmssdScore (Fin (5 # 10))) (mul deltaScore (Fin (3 # 10))))
         (mul restingScore (Fin (2 # 10)))).

Definition getReadinessLabel (score : number) : string * string :=
  if ge score (of_Z 80) then ("Excellent", "#22c55e")
  else if ge score (of_Z 60) then ("Good", "#84cc16")
  else if ge score (of_Z 40) then ("Moderate", "#eab308")
  else if ge score (of_Z 20) then ("Low", "#f97316")
  else ("Poor", "#ef4444").

(** The data gathered in one phase. *)
Record PhaseData : Type := {
  hrReadings : list Q;
  phase_rrIntervals : list Q;
}.

(** The result assembled when the standing phase ends; [startTime] is
    [startTimeRef.current]. *)
Definition testResult (startTime : Z) (lyingData standingData : PhaseData)
    : Storage.MorningTestResult :=
  let lyingAvgHr := calcAvg (hrReadings lyingData) in
  let standingAvgHr := calcAvg (hrReadings standingData) in
  let lyingRMSSD := calcRMSSD (phase_rrIntervals lyingData) in
  let standingRMSSD := calcRMSSD (phase_rrIntervals standingData) in
  let readinessScore :=
    calcReadinessScore lyingRMSSD lyingAvgHr standingAvgHr in
  {| Storage.test_id := None;
     Storage.timestamp := startTime;
     Storage.lyingAvgHr := lyingAvgHr;
     Storage.standingAvgHr := standingAvgHr;
     Storage.hrDelta := sub standingAvgHr lyingAvgHr;
     Storage.lyingRMSSD := lyingRMSSD;
     Storage.standingRMSSD := standingRMSSD;
     Storage.readinessScore := readinessScore |}.

End MorningTest.

(** ** App.tsx: the session-management layer that feeds the engines *)

Module App.

(** [newHistory.length > cap ? newHistory.slice(newHistory.length - cap)
    : newHistory]. *)
Definition keepLast {A : Type} (cap : nat) (newHistory : list A) : list A :=
  if (cap <? length newHistory)%nat
  then skipn (length newHistory - cap) newHistory
  else newHistory.

(** The refs and the state cells that the data handler touches. *)
Record state : Type := {
  statsRef : Stats.StatsCalculator;
  advancedStatsRef : AdvancedStats.AdvancedStatsCalculator;
  currentHr : Z;
  stats : Stats.SessionStats;
  advancedStats : AdvancedStats.AdvancedStats;
  hrHistory : list (string * Z);
  rrHistory : list Q;
  hrDataWithTimestamp : list (Z * Z);
  sessionStartTime : Z;
}.

Definition zeroStats : Stats.SessionStats :=
  {| Stats.minHr := zero; Stats.maxHr := zero; Stats.avgHr := zero;
     Stats.sdnn := zero; Stats.rmssd := zero; Stats.duration := zero |}.

Definition zeroAdvancedStats : AdvancedStats.AdvancedStats :=
  {| AdvancedStats.pnn50 := zero; AdvancedStats.stressIndex := zero;
     AdvancedStats.lf := zero; AdvancedStats.hf := zero;
     AdvancedStats.lfHfRatio := zero; AdvancedStats.respirationRate := zero |}.

Definition init : state :=
  {| statsRef := Stats.init;
     advancedStatsRef := AdvancedStats.init;
     currentHr := 0;
     stats := zeroStats;
     advancedStats := zeroAdvancedStats;
     hrHistory := [];
     rrHistory := [];
     hrDataWithTimestamp := [];
     sessionStartTime := 0 |}.

(** The three wall-clock reads of one run of the data handler: inside
    [addReading], [getStats] and [calculate]. *)
Record clock : Type := {
  atAddReading : Z;
  atGetStats : Z;
  atCalculate : Z;
}.

Section Handlers.

Variable windowedSpectrum : list Q -> list number.
Variable toLocaleTimeString : Z -> string.

Definition handleDataReceived (ck : clock) (data : Bluetooth.HeartRateData)
    (st : state) : state :=
  let statsRef' :=
    Stats.addReading (atAddReading ck)
      (inject_Z (Bluetooth.heartRate data)) (Bluetooth.rrIntervals data)
      (statsRef st) in
  let stats' := Stats.getStats (atGetStats ck) statsRef' in
  let '(advancedStats', advancedStatsRef', rrHistory') :=
    match Bluetooth.rrIntervals data with
    | Some rrs =>
        let added := AdvancedStats.addRRIntervals rrs (advancedStatsRef st) in
        let r := AdvancedStats.calculate windowedSpectrum (atCalculate ck) added in
        (fst r, snd r, keepLast 1000 (rrHistory st ++ rrs))
    | None => (advancedStats st, advancedStatsRef st, rrHistory st)
    end in
  {| statsRef := statsRef';
     advancedStatsRef := advancedStatsRef';
     currentHr := Bluetooth.heartRate data;
     stats := stats';
     advancedStats := advancedStats';
     hrHistory :=
       keepLast 100
         (hrHistory st
          ++ [(toLocaleTimeString (Bluetooth.timestamp data),
               Bluetooth.heartRate data)]);
     rrHistory := rrHistory';
     hrDataWithTimestamp :=
       keepLast 1000
         (hrDataWithTimestamp st
          ++ [(Bluetooth.timestamp data, Bluetooth.heartRate data)]);
     sessionStartTime := sessionStartTime st |}.

(** The success path of [connect]: both engines are reset and the
    histories cleared. *)
Definition connected (nowReset nowStart : Z) (st : state) : state :=
  {| statsRef := Stats.reset nowReset (statsRef st);
     advancedStatsRef := AdvancedStats.reset (advancedStatsRef st);
     currentHr := currentHr st;
     stats := stats st;
     advancedStats := advancedStats st;
     hrHistory := [];
     rrHistory := [];
     hrDataWithTimestamp := [];
     sessionStartTime := nowStart |}.

(** The session handed to [saveSession] by [disconnect(true)], none when no
    heart-rate point was recorded; [id] is the identifier that
    [generateId] draws. *)
Definition sessionToSave (id : string) (nowEnd nowStats nowCalc : Z)
    (st : state) : option Storage.Session :=
  if (0 <? length (hrDataWithTimestamp st))%nat then
    Some {| Storage.id := id;
            Storage.startTime := sessionStartTime st;
            Storage.endTime := nowEnd;
            Storage.hrData :=
              map (fun p => (fst p, of_Z (snd p))) (hrDataWithTimestamp st);
            Storage.rrIntervals := rrHistory st;
            Storage.stats := Stats.getStats nowStats (statsRef st);
            Storage.advancedStats :=
              fst (AdvancedStats.calculate windowedSpectrum nowCalc
                     (advancedStatsRef st));
            Storage.session_testType := None |}
  else None.

(** What happens to the application: a successful connect or a sample. *)
Inductive event : Type :=
| Connected (nowReset nowStart : Z)
| DataReceived (ck : clock) (data : Bluetooth.HeartRateData).

Definition step (st : state) (e : event) : state :=
  match e with
  | Connected nowReset nowStart => connected nowReset nowStart st
  | DataReceived ck data => handleDataReceived ck data st
  end.

Definition run (es : list event) : state := fold_left step es init.

End Handlers.

End App.

(** ** Vocabulary of the further properties *)

Module Terms.

(** *** Bluetooth: a writer for the Heart Rate Measurement characteristic

    The flags byte announces RR intervals (bit 4) and a 16-bit heart rate
    (bit 0) when the rate does not fit a byte; the intervals follow as
    little-endian 16-bit counts of 1/1024 s. *)
Definition byte_of (z : Z) : Byte.byte :=
  match Byte.of_N (Z.to_N z) with
  | Some b => b
  | None => Byte.x00
  end.

Definition uint16_le (z : Z) : list Byte.byte :=
  [byte_of (z mod 256); byte_of (z / 256)].

Definition encode_measurement (hr : Z) (raw : list Z) : list Byte.byte :=
  (if (hr <? 256)%Z then [byte_of 16; byte_of hr]
   else byte_of 17 :: uint16_le hr)
  ++ flat_map uint16_le raw.

Definition to_ms (raw : Z) : Q := inject_Z raw / 1024 * 1000.

(** *** Running statistics *)

(** The time of the first reading since the latest reset, if any. *)
Definition session_start (ks : list Stats.call) : option Z :=
  fold_left
    (fun acc k =>
       match k with
       | Stats.Reset _ => None
       | Stats.AddReading now _ _ =>
           match acc with None => Some now | Some t => Some t end
       end)
    ks None.

(** A value that is an integer. *)
Definition integral (x : Q) : Prop := exists z : Z, x = inject_Z z.

End Terms.

(** * Properties *)

(** ** Arithmetic of finite JavaScript numbers *)

Module JSFacts.

Lemma div_Fin_nz (a b : Q) : ~ b == 0 -> div (Fin a) (Fin b) = Fin (a / b).
Proof.
  intros Hb. simpl. destruct (Qeq_bool b 0) eqn:E; auto.
  apply Qeq_bool_eq in E. contradiction.
Qed.




Lemma gt_Fin (a b : Q) : gt (Fin a) (Fin b) = true <-> b < a.
Proof.
  unfold gt. simpl. rewrite Qgt_alt.
  destruct (a ?= b); split; intros; congruence.
Qed.

Lemma le_Fin (a b : Q) : le (Fin a) (Fin b) = true <-> a <= b.
Proof.
  unfold le. simpl. rewrite Qle_alt.
  destruct (a ?= b); split; intros; congruence.
Qed.

Lemma ge_Fin (a b : Q) : ge (Fin a) (Fin b) = true <-> b <= a.
Proof.
  unfold ge. simpl. rewrite Qle_alt, <- (Qcompare_antisym a b).
  destruct (a ?= b); simpl; split; intros; congruence.
Qed.

Lemma gt_zero_cases (x : number) :
  gt x zero = true -> (exists a, x = Fin a /\ 0 < a) \/ x = PInf.
Proof.
  destruct x as [a| | |]; intros H; try discriminate H; auto.
  apply gt_Fin in H. eauto.
Qed.

Lemma Math_max_Fin (a b : Q) :
  exists q, Math_max (Fin a) (Fin b) = Fin q /\ q == Qmax a b.
Proof.
  unfold Math_max. simpl. destruct (a ?= b) eqn:E.
  - exists a. split; auto. apply Qeq_alt in E. rewrite Q.max_l; lra.
  - exists b. split; auto. apply Qlt_alt in E. rewrite Q.max_r; lra.
  - exists a. split; auto. apply Qgt_alt in E. rewrite Q.max_l; lra.
Qed.

Lemma Math_min_Fin (a b : Q) :
  exists q, Math_min (Fin a) (Fin b) = Fin q /\ q == Qmin a b.
Proof.
  unfold Math_min. simpl. destruct (a ?= b) eqn:E.
  - exists a. split; auto. apply Qeq_alt in E. rewrite Q.min_l; lra.
  - exists a. split; auto. apply Qlt_alt in E. rewrite Q.min_l; lra.
  - exists b. split; auto. apply Qgt_alt in E. rewrite Q.min_r; lra.
Qed.

Lemma Qcompare_inject_Z (a b : Z) : (inject_Z a ?= inject_Z b) = (a ?= b)%Z.
Proof. unfold Qcompare. simpl. now rewrite !Z.mul_1_r. Qed.

Lemma Math_min_of_Z (a b : Z) : Math_min (of_Z a) (of_Z b) = of_Z (Z.min a b).
Proof.
  unfold Math_min, of_Z. cbn [cmp]. rewrite Qcompare_inject_Z.
  unfold Z.min. destruct (a ?= b)%Z; reflexivity.
Qed.







(** *** The rounded square root *)

Lemma round_sqrt_Q_halves (a : Q) :
  0 <= a ->
  let k := Qfloor (4 * a) in
  let n := round_sqrt_Q a in
  (0 <= k)%Z /\ (0 <= n)%Z /\
  (k + 1 <= (2 * n + 1) * (2 * n + 1))%Z /\
  ((1 <= n)%Z -> ((2 * n + -1) * (2 * n + -1) <= k)%Z).
Proof.
  intros Ha k n. unfold n, round_sqrt_Q. fold k.
  assert (Hk : (0 <= k)%Z).
  { change 0%Z with (Qfloor 0). apply Qfloor_resp_le. lra. }
  pose proof (Z.sqrt_spec k Hk) as Hs. cbv zeta in Hs.
  pose proof (Z.sqrt_nonneg k) as Hs0.
  set (s := Z.sqrt k) in *.
  set (m := ((s + 1) / 2)%Z).
  assert (Hm : (2 * m <= s + 1 <= 2 * m + 1)%Z).
  { unfold m. pose proof (Z.div_mod (s + 1) 2 ltac:(lia)).
    pose proof (Z.mod_pos_bound (s + 1) 2 ltac:(lia)). lia. }
  repeat split; try nia.
Qed.

Lemma round_sqrt_Q_nearest (a : Q) :
  0 <= a -> Spec.nearest_to_sqrt a (round_sqrt_Q a).
Proof.
  intros Ha.
  destruct (round_sqrt_Q_halves a Ha) as (Hk & Hn & Hup & Hlo).
  cbv zeta in *.
  set (k := Qfloor (4 * a)) in *. set (n := round_sqrt_Q a) in *.
  pose proof (Qlt_floor (4 * a)) as Hf1. fold k in Hf1.
  pose proof (Qfloor_le (4 * a)) as Hf2. fold k in Hf2.
  rewrite inject_Z_plus in Hf1.
  rewrite Zle_Qle in Hup.
  rewrite !inject_Z_mult, !inject_Z_plus, !inject_Z_mult in Hup.
  change (inject_Z 1) with 1 in *. change (inject_Z 2) with 2 in *.
  repeat split.
  - exact Hn.
  - set (x := inject_Z n) in *. set (y := inject_Z k) in *. clearbody x y.
    assert (E : (x + (1 # 2)) ^ 2 == (2 * x + 1) * (2 * x + 1) / 4) by field.
    rewrite E. lra.
  - intros H1. specialize (Hlo H1). rewrite Zle_Qle in Hlo.
    rewrite !inject_Z_mult, !inject_Z_plus, !inject_Z_mult in Hlo.
    change (inject_Z (-1)) with (-1 # 1) in *.
    change (inject_Z 2) with 2 in *.
    set (x := inject_Z n) in *. set (y := inject_Z k) in *. clearbody x y.
    assert (E : (x - (1 # 2)) ^ 2
                == (2 * x + (-1 # 1)) * (2 * x + (-1 # 1)) / 4) by field.
    rewrite E. lra.
Qed.


(** The rounding is determined by the value: no other integer is nearest. *)
Lemma nearest_to_sqrt_unique (v : Q) (n m : Z) :
  Spec.nearest_to_sqrt v n -> Spec.nearest_to_sqrt v m -> n = m.
Proof.
  assert (H : forall n m, Spec.nearest_to_sqrt v n ->
                          Spec.nearest_to_sqrt v m -> (n < m)%Z -> False).
  { clear. intros n m (Hn0 & Hnu & _) (Hm0 & _ & Hml) Hlt.
    specialize (Hml ltac:(lia)).
    assert (Hq : inject_Z n + 1 <= inject_Z m).
    { change 1 with (inject_Z 1). rewrite <- inject_Z_plus, <- Zle_Qle. lia. }
    assert (Hq0 : 0 <= inject_Z n).
    { change 0 with (inject_Z 0). rewrite <- Zle_Qle. lia. }
    set (x := inject_Z n) in *. set (y := inject_Z m) in *.
    clearbody x y.
    assert (E1 : (x + (1 # 2)) ^ 2 == (x + (1 # 2)) * (x + (1 # 2))) by field.
    assert (E2 : (y - (1 # 2)) ^ 2 == (y - (1 # 2)) * (y - (1 # 2))) by field.
    rewrite E1 in Hnu. rewrite E2 in Hml.
    nra. }
  intros Hn Hm.
  destruct (Z.lt_trichotomy n m) as [Hlt | [Heq | Hgt]]; auto.
  - exfalso; eauto.
  - exfalso; eauto.
Qed.

(** On the real line: [n] is [sqrt v] rounded half up. *)
Lemma nearest_to_sqrt_real (v : Q) (n : Z) :
  0 <= v -> Spec.nearest_to_sqrt v n -> Spec.rounds_to (sqrt (Q2R v)) n.
Proof.
  intros Hv (Hn & Hup & Hlo). unfold Spec.rounds_to.
  assert (HnR : (0 <= IZR n)%R) by (now apply IZR_le).
  assert (HvR : (0 <= Q2R v)%R).
  { apply Qle_Rle in Hv. now rewrite RMicromega.Q2R_0 in Hv. }
  assert (Ehalf : Q2R (1 # 2) = (/ 2)%R).
  { unfold Q2R. simpl. Lra.lra. }
  assert (EZ : Q2R (inject_Z n) = IZR n).
  { unfold Q2R, inject_Z. simpl. Lra.lra. }
  split.
  - destruct (Z.eq_dec n 0%Z) as [-> | Hn0].
    + pose proof (sqrt_pos (Q2R v)). simpl. Lra.lra.
    + specialize (Hlo ltac:(lia)).
      assert (E : (inject_Z n - (1 # 2)) ^ 2
                  == (inject_Z n - (1 # 2)) * (inject_Z n - (1 # 2))) by ring.
      rewrite E in Hlo. apply Qle_Rle in Hlo.
      rewrite Q2R_mult, Q2R_minus, EZ, Ehalf in Hlo.
      assert (H1 : (1 <= IZR n)%R) by (apply IZR_le; lia).
      rewrite <- (sqrt_square (IZR n - / 2)) by Lra.lra.
      now apply sqrt_le_1_alt.
  - assert (E : (inject_Z n + (1 # 2)) ^ 2
                == (inject_Z n + (1 # 2)) * (inject_Z n + (1 # 2))) by ring.
    rewrite E in Hup. apply Qlt_Rlt in Hup.
    rewrite Q2R_mult, Q2R_plus, EZ, Ehalf in Hup.
    rewrite <- (sqrt_square (IZR n + / 2)) by Lra.lra.
    apply sqrt_lt_1_alt. split; [exact HvR | exact Hup].
Qed.

Lemma Math_round_sqrt_real (v : Q) :
  0 <= v ->
  exists n : Z, Math_round_sqrt (Fin v) = of_Z n /\
                Spec.rounds_to (sqrt (Q2R v)) n.
Proof.
  intros Hv. exists (round_sqrt_Q v). split.
  - simpl. now rewrite (proj2 (Qle_bool_iff 0 v) Hv).
  - apply nearest_to_sqrt_real; [exact Hv|].
    now apply round_sqrt_Q_nearest.
Qed.

End JSFacts.

Import JSFacts.

(** ** The running statistics engine *)

Module StatsFacts.

Import Stats.










End StatsFacts.

(** ** The spectral analysis engine and the stress index *)

Module AdvancedStatsFacts.

Import AdvancedStats.

(** *** Scanning the series: extremes *)






(** *** The histogram *)








(** *** Enumeration order and the mode *)






Example stress_alternating :
  calculateStressIndex (Examples.alternating_series 15) = of_Z 313.
Proof. vm_compute. reflexivity. Qed.

Example pnn50_all_above :
  strict_eq (calculatePNN50 [800; 900; 1000; 1100]) (of_Z 100) = true.
Proof. vm_compute. reflexivity. Qed.

Example pnn50_none_above :
  strict_eq (calculatePNN50 [800; 820; 840; 860]) (of_Z 0) = true.
Proof. vm_compute. reflexivity. Qed.

Section Engine.

Variable ws : list Q -> list number.

(** *** The cache invariant *)

Lemma step_cache_sound (c : AdvancedStatsCalculator) (k : call) :
  Spec.cache_sound c -> Spec.cache_sound (step ws c k).
Proof.
  intros Hc. destruct k as [rrs | now |]; unfold Spec.cache_sound; simpl.
  - rewrite length_app. intros H. apply Hc. lia.
  - unfold calculate.
    destruct (length (rrIntervals c) <? 2)%nat; simpl; auto.
    destruct (_ <? _)%Z; simpl; auto.
    intros H. unfold calculateFrequencyDomain.
    destruct (Nat.ltb_spec (length (rrIntervals c)) 60); auto. lia.
  - reflexivity.
Qed.

Lemma run_cache_sound (ks : list call) (c : AdvancedStatsCalculator) :
  Spec.cache_sound c -> Spec.cache_sound (run ws ks c).
Proof.
  revert c. induction ks as [|k ks IH]; intros c Hc; simpl; auto.
  apply IH, step_cache_sound, Hc.
Qed.

(** C5.  In every state reached from a fresh instance by [addRRIntervals],
    [calculate] and [reset] calls at any times, if the buffer holds fewer
    than 60 intervals then [calculate] returns 0 for [lf], [hf],
    [lfHfRatio] and [respirationRate]. *)
Theorem spectral_zero_below_60 (ks : list call) (now : Z) :
  let c := run ws ks init in
  (length (rrIntervals c) < 60)%nat ->
  let r := fst (calculate ws now c) in
  lf r = zero /\ hf r = zero /\ lfHfRatio r = zero /\ respirationRate r = zero.
Proof.
  intros c Hlen r.
  assert (Hc : Spec.cache_sound c).
  { apply run_cache_sound. intros _. reflexivity. }
  unfold r, calculate.
  destruct (length (rrIntervals c) <? 2)%nat; simpl; auto.
  destruct (_ <? _)%Z; simpl.
  - unfold calculateFrequencyDomain.
    destruct (Nat.ltb_spec (length (rrIntervals c)) 60); [simpl; auto | lia].
  - rewrite (Hc Hlen). simpl. auto.
Qed.

(** *** The throttle *)

Lemma step_within (t : Z) (c : AdvancedStatsCalculator) (k : call) :
  lastFrequencyCalculation c = t ->
  Spec.within_throttle t k ->
  let c' := step ws c k in
  lastFrequencyCalculation c' = t /\
  cachedFrequencyDomain c' = cachedFrequencyDomain c /\
  (length (rrIntervals c) <= length (rrIntervals c'))%nat.
Proof.
  intros Ht Hk. destruct k as [rrs | now |]; simpl in *.
  - rewrite length_app. repeat split; auto. lia.
  - unfold calculate.
    destruct (length (rrIntervals c) <? 2)%nat; simpl; auto.
    rewrite Ht. unfold FREQUENCY_CALCULATION_INTERVAL_MS in *.
    destruct (Z.ltb_spec 5000 (now - t)); [lia|]. auto.
  - contradiction.
Qed.

Lemma run_within (t : Z) (ks : list call) : forall c,
  lastFrequencyCalculation c = t ->
  Forall (Spec.within_throttle t) ks ->
  let c' := run ws ks c in
  lastFrequencyCalculation c' = t /\
  cachedFrequencyDomain c' = cachedFrequencyDomain c /\
  (length (rrIntervals c) <= length (rrIntervals c'))%nat.
Proof.
  induction ks as [|k ks IH]; intros c Ht Hks; simpl.
  - auto.
  - inversion Hks as [|? ? Hk Hks']; subst.
    destruct (step_within _ c k eq_refl Hk) as (H1 & H2 & H3).
    destruct (IH (step ws c k) H1 Hks') as (H4 & H5 & H6).
    unfold run in *. cbn [fold_left]. cbv zeta in *.
    split; [exact H4|]. split; [congruence|lia].
Qed.

(** C4.  With at least two buffered intervals, let a [calculate] call at
    time [t] recompute the spectral fields.  After any further
    [addRRIntervals] calls and [calculate] calls within 5 seconds of [t],
    a [calculate] call at a time [t'] within 5 seconds of [t] returns the
    same [lf], [hf], [lfHfRatio] and [respirationRate] as the first call,
    while [pnn50] and [stressIndex] of each call are computed from the
    buffer as it stands at that call. *)
Theorem spectral_fields_throttled
    (c : AdvancedStatsCalculator) (t : Z) (ks : list call) (t' : Z) :
  (2 <= length (rrIntervals c))%nat ->
  (FREQUENCY_CALCULATION_INTERVAL_MS < t - lastFrequencyCalculation c)%Z ->
  Forall (Spec.within_throttle t) ks ->
  (t' - t <= FREQUENCY_CALCULATION_INTERVAL_MS)%Z ->
  let fd := calculateFrequencyDomain ws (rrIntervals c) in
  let r1 := fst (calculate ws t c) in
  let c2 := run ws ks (snd (calculate ws t c)) in
  let r2 := fst (calculate ws t' c2) in
  (lf r1 = fd_lf fd /\ hf r1 = fd_hf fd /\
   lfHfRatio r1 = fd_lfHfRatio fd /\
   respirationRate r1 = fd_respirationRate fd) /\
  (lf r2 = lf r1 /\ hf r2 = hf r1 /\
   lfHfRatio r2 = lfHfRatio r1 /\ respirationRate r2 = respirationRate r1) /\
  (pnn50 r1 = calculatePNN50 (rrIntervals c) /\
   stressIndex r1 = calculateStressIndex (rrIntervals c)) /\
  (pnn50 r2 = calculatePNN50 (rrIntervals c2) /\
   stressIndex r2 = calculateStressIndex (rrIntervals c2)).
Proof.
  intros Hlen Hdue Hks Ht' fd r1 c2 r2.
  assert (E1 : calculate ws t c =
    ({| pnn50 := calculatePNN50 (rrIntervals c);
        stressIndex := calculateStressIndex (rrIntervals c);
        lf := fd_lf fd; hf := fd_hf fd;
        lfHfRatio := fd_lfHfRatio fd;
        respirationRate := fd_respirationRate fd |},
     {| rrIntervals := rrIntervals c;
        cachedFrequencyDomain := fd;
        lastFrequencyCalculation := t |})).
  { unfold calculate.
    destruct (Nat.ltb_spec (length (rrIntervals c)) 2); [lia|].
    destruct (Z.ltb_spec FREQUENCY_CALCULATION_INTERVAL_MS
                (t - lastFrequencyCalculation c)); [reflexivity|lia]. }
  subst r1 r2 c2. rewrite E1. cbn [fst snd].
  set (c1 := {| rrIntervals := rrIntervals c;
                cachedFrequencyDomain := fd; lastFrequencyCalculation := t |}).
  destruct (run_within t ks c1 eq_refl Hks) as (HL & HC & HN).
  set (c2 := run ws ks c1) in *. simpl in HN, HC.
  unfold calculate.
  destruct (Nat.ltb_spec (length (rrIntervals c2)) 2); [lia|].
  rewrite HL.
  destruct (Z.ltb_spec FREQUENCY_CALCULATION_INTERVAL_MS (t' - t)); [lia|].
  cbn [fst pnn50 stressIndex lf hf lfHfRatio respirationRate].
  rewrite HC. repeat split; reflexivity.
Qed.

(** *** Batching *)



(** *** The stress index *)



End Engine.

Lemma spectral_zero_below_60_witness :
  lf (fst (calculate Examples.flatSpectrum 20000
             (run Examples.flatSpectrum
                [AddRRIntervals (Examples.constant_series 60); Calculate 6000;
                 Reset; AddRRIntervals [800; 900]] init))) = zero.
Proof.
  refine (proj1 (spectral_zero_below_60 Examples.flatSpectrum _ 20000 _)).
  vm_compute. lia.
Defined.

Lemma spectral_fields_throttled_witness :
  lf (fst (calculate Examples.flatSpectrum 15000
             (run Examples.flatSpectrum
                [AddRRIntervals [900; 950]; Calculate 12000]
                (snd (calculate Examples.flatSpectrum 10000
                        (addRRIntervals (Examples.constant_series 60) init))))))
  = lf (fst (calculate Examples.flatSpectrum 10000
               (addRRIntervals (Examples.constant_series 60) init))).
Proof.
  refine (proj1 (proj1 (proj2
    (spectral_fields_throttled Examples.flatSpectrum
       (addRRIntervals (Examples.constant_series 60) init) 10000
       [AddRRIntervals [900; 950]; Calculate 12000] 15000 _ _ _ _)))).
  - vm_compute. lia.
  - vm_compute. reflexivity.
  - repeat constructor. vm_compute. discriminate.
  - vm_compute. discriminate.
Defined.


End AdvancedStatsFacts.

(** ** Session readiness *)

Module ReadinessFacts.

Import Readiness.

Lemma percent_score_Fin (a : Q) :
  exists q, percent_score (Fin a) = Fin q /\
            q == Qmin 100 (Qmax 0 (a * 100)).
Proof.
  unfold percent_score, zero, of_Z. cbn [mul].
  destruct (Math_max_Fin 0 (a * inject_Z 100)) as (m & -> & Em).
  destruct (Math_min_Fin (inject_Z 100) m) as (q & -> & Eq).
  exists q. split; auto. rewrite Eq, Em. reflexivity.
Qed.

(** A sub-score is a finite number between 0 and 100 unless the ratio is
    [NaN]. *)
Lemma percent_score_value (x : number) :
  x <> NaN ->
  exists q, percent_score x = Fin q /\ 0 <= q <= 100 /\
    match x with
    | Fin a => q == Qmin 100 (Qmax 0 (a * 100))
    | PInf => q == 100
    | _ => q == 0
    end.
Proof.
  intros Hx. destruct x as [a| | |]; try congruence.
  - destruct (percent_score_Fin a) as (q & Hq & Eq).
    exists q. split; auto. split; auto. rewrite Eq.
    destruct (Q.min_spec 100 (Qmax 0 (a * 100))) as [[? ->]|[? ->]];
    destruct (Q.max_spec 0 (a * 100)) as [[? E]|[? E]]; rewrite ?E in *; lra.
  - exists 100. vm_compute. intuition congruence.
  - exists 0. vm_compute. intuition congruence.
Qed.

Lemma percent_score_mono (x y : number) :
  le x y = true ->
  exists p q, percent_score x = Fin p /\ percent_score y = Fin q /\
              0 <= p /\ p <= q /\ q <= 100.
Proof.
  intros Hle.
  assert (Hx : x <> NaN) by (intros ->; discriminate Hle).
  assert (Hy : y <> NaN) by (intros ->; destruct x; discriminate Hle).
  destruct (percent_score_value x Hx) as (p & Hp & Bp & Vp).
  destruct (percent_score_value y Hy) as (q & Hq & Bq & Vq).
  exists p, q. repeat split; auto; try lra.
  destruct x as [a| | |], y as [b| | |]; try congruence; try discriminate Hle;
    try lra.
  apply le_Fin in Hle. rewrite Vp, Vq.
  apply Q.min_le_compat_l, Q.max_le_compat_l. nra.
Qed.

(** Dividing by a positive finite baseline preserves the order. *)
Lemma div_pos_mono (x y : number) (b : Q) :
  0 < b -> le x y = true -> le (div x (Fin b)) (div y (Fin b)) = true.
Proof.
  intros Hb Hle.
  assert (Hb0 : Qle_bool 0 b = true) by (apply Qle_bool_iff; lra).
  assert (Hnz : ~ b == 0) by lra.
  destruct x as [a1| | |], y as [a2| | |]; try discriminate Hle;
    rewrite ?div_Fin_nz by exact Hnz; cbn [div sign sign_mul inf_of];
    rewrite ?Hb0; cbn [sign_mul inf_of]; try reflexivity.
  apply le_Fin in Hle. apply le_Fin.
  apply Qmult_le_compat_r; [exact Hle|].
  apply Qlt_le_weak, Qinv_lt_0_compat, Hb.
Qed.

Lemma score_eq (st : Stats.SessionStats) (adv : AdvancedStats.AdvancedStats)
    (bl : PersonalBaseline) :
  score (calculateReadiness st adv bl) =
  Math_round
    (add (add (mul (percent_score
                      (if gt (AdvancedStats.pnn50 adv) zero
                       then div (Stats.rmssd st) (avgRmssd bl) else zero))
                   (Fin (40 # 100)))
              (mul (percent_score
                      (if gt (Stats.avgHr st) zero
                       then div (avgRestingHR bl) (Stats.avgHr st) else zero))
                   (Fin (35 # 100))))
         (mul (percent_score
                 (if gt (Stats.sdnn st) zero
                  then div (Stats.sdnn st) (avgSdnn bl) else zero))
              (Fin (25 # 100)))).
Proof.
  unfold calculateReadiness. cbv zeta.
  repeat match goal with
         | |- context [if ge ?x ?y then _ else _] => destruct (ge x y)
         end; reflexivity.
Qed.

(** With a finite baseline the heart-rate and SDNN ratios are never [NaN]. *)
Lemma hr_ratio_defined (avgHr : number) (h : Q) :
  (if gt avgHr zero then div (Fin h) avgHr else zero) <> NaN.
Proof.
  destruct (gt avgHr zero) eqn:E; [|discriminate].
  destruct (gt_zero_cases _ E) as [(a & -> & Ha) | ->].
  - rewrite div_Fin_nz by lra. discriminate.
  - discriminate.
Qed.

Lemma sdnn_ratio_defined (sdnn : number) (s : Q) :
  (if gt sdnn zero then div sdnn (Fin s) else zero) <> NaN.
Proof.
  destruct (gt sdnn zero) eqn:E; [|discriminate].
  destruct (gt_zero_cases _ E) as [(a & -> & Ha) | ->].
  - cbn [div sign]. destruct (Qeq_bool s 0); [|discriminate].
    assert (H : (Qnum a ?= 0)%Z = Gt).
    { apply Z.compare_gt_iff. unfold Qlt in Ha. simpl in Ha. lia. }
    rewrite H. discriminate.
  - cbn [div sign sign_mul]. destruct (Qle_bool 0 s); discriminate.
Qed.

(** C7.  For a finite baseline with a positive [avgRmssd], and with
    [avgHr], [sdnn], [pnn50] and the baseline held fixed, the score of
    [calculateReadiness] does not decrease when [rmssd] increases; when
    [pnn50 <= 0] the RMSSD contribution is 0 and the score does not depend
    on [rmssd] at all. *)
Theorem readiness_monotone_in_rmssd
    (st : Stats.SessionStats) (adv : AdvancedStats.AdvancedStats)
    (bl : PersonalBaseline) (b : Q) (r1 r2 : number) :
  avgRmssd bl = Fin b -> 0 < b ->
  is_finite (avgRestingHR bl) -> is_finite (avgSdnn bl) ->
  le r1 r2 = true ->
  ge (score (calculateReadiness (Spec.with_rmssd st r2) adv bl))
     (score (calculateReadiness (Spec.with_rmssd st r1) adv bl)) = true
  /\ (le (AdvancedStats.pnn50 adv) zero = true ->
      contribution
        (factor_rmssd (calculateReadiness (Spec.with_rmssd st r1) adv bl))
      = zero
      /\ score (calculateReadiness (Spec.with_rmssd st r2) adv bl)
         = score (calculateReadiness (Spec.with_rmssd st r1) adv bl)).
Proof.
  intros Hb Hb0 Hh Hs Hle.
  rewrite !score_eq. cbn [Spec.with_rmssd Stats.rmssd Stats.avgHr Stats.sdnn].
  rewrite Hb.
  destruct (avgRestingHR bl) as [h| | |]; try contradiction.
  destruct (avgSdnn bl) as [s| | |]; try contradiction.
  destruct (percent_score_value _ (hr_ratio_defined (Stats.avgHr st) h))
    as (ph & -> & _ & _).
  destruct (percent_score_value _ (sdnn_ratio_defined (Stats.sdnn st) s))
    as (ps & -> & _ & _).
  split.
  - assert (Hr : le (if gt (AdvancedStats.pnn50 adv) zero
                     then div r1 (Fin b) else zero)
                    (if gt (AdvancedStats.pnn50 adv) zero
                     then div r2 (Fin b) else zero) = true).
    { destruct (gt (AdvancedStats.pnn50 adv) zero); [|reflexivity].
      now apply div_pos_mono. }
    destruct (percent_score_mono _ _ Hr) as (p & q & -> & -> & Hp & Hpq & Hq).
    cbn [mul add Math_round]. unfold of_Z. apply ge_Fin.
    rewrite <- Zle_Qle. unfold round_half_up. apply Qfloor_resp_le. lra.
  - intros Hgate.
    assert (Hg : gt (AdvancedStats.pnn50 adv) zero = false).
    { unfold le, gt in *.
      destruct (cmp (AdvancedStats.pnn50 adv) zero) as [[| |]|]; congruence. }
    split; [|rewrite Hg; reflexivity].
    unfold calculateReadiness. cbv zeta.
    cbn [Spec.with_rmssd Stats.rmssd Stats.avgHr Stats.sdnn].
    rewrite Hg.
    repeat match goal with
           | |- context [if ge ?x ?y then _ else _] => destruct (ge x y)
           end; reflexivity.
Qed.

Lemma readiness_monotone_in_rmssd_witness :
  ge (score (calculateReadiness
               (Spec.with_rmssd (Examples.sessionStats 60 45 0) (of_Z 50))
               (Examples.advanced 10 100) DEFAULT_BASELINE))
     (score (calculateReadiness
               (Spec.with_rmssd (Examples.sessionStats 60 45 0) (of_Z 30))
               (Examples.advanced 10 100) DEFAULT_BASELINE)) = true.
Proof.
  refine (proj1 (readiness_monotone_in_rmssd
                   (Examples.sessionStats 60 45 0) (Examples.advanced 10 100)
                   DEFAULT_BASELINE 40 (of_Z 30) (of_Z 50) _ _ _ _ _)).
  - reflexivity.
  - reflexivity.
  - exact I.
  - exact I.
  - reflexivity.
Defined.

Example readiness_scores :
  score (calculateReadiness (Examples.sessionStats 60 45 30)
           (Examples.advanced 10 100) DEFAULT_BASELINE) = of_Z 88 /\
  score (calculateReadiness (Examples.sessionStats 60 45 50)
           (Examples.advanced 10 100) DEFAULT_BASELINE) = of_Z 98.
Proof. vm_compute. split; reflexivity. Qed.

End ReadinessFacts.

(** ** Recovery score and trends *)

Module RecoveryFacts.

Import Storage Recovery.

Lemma filter_none {A} (f : A -> bool) (l : list A) :
  (forall x, In x l -> f x = false) -> List.filter f l = [].
Proof.
  induction l as [|x l IH]; intros H; simpl; auto.
  rewrite (H x) by (now left). apply IH. intros y Hy. apply H. now right.
Qed.

Lemma size_union_intersection (X Y : gset string) :
  (size X + size Y = size (X ∪ Y) + size (X ∩ Y))%nat.
Proof.
  rewrite size_union_alt, size_difference_alt, (intersection_comm_L Y X).
  assert (H : (size (X ∩ Y) <= size Y)%nat).
  { apply subseteq_size, intersection_subseteq_r. }
  lia.
Qed.


(** The consistency sub-score in closed form. *)
Lemma consistency_of_closed (n : nat) (days : Z) :
  (0 < days)%Z ->
  Spec.consistency_of n days =
  of_Z (Z.min 25
          (round_half_up
             (inject_Z (Z.min (Z.of_nat n) days) / inject_Z (Z.min days 7)
              * 25))).
Proof.
  intros Hd. unfold Spec.consistency_of, of_nat.
  rewrite !Math_min_of_Z. unfold of_Z.
  rewrite div_Fin_nz.
  - cbn [mul Math_round]. apply (Math_min_of_Z 25).
  - change 0 with (inject_Z 0). rewrite inject_Z_injective. lia.
Qed.

Lemma consistency_of_zero (days : Z) :
  (0 < days)%Z -> Spec.consistency_of 0 days = zero.
Proof.
  intros Hd. rewrite consistency_of_closed by exact Hd.
  rewrite (Z.min_l (Z.of_nat 0)) by lia. simpl Z.of_nat.
  assert (E : inject_Z 0 / inject_Z (Z.min days 7) * 25 == 0).
  { unfold Qdiv. change (inject_Z 0) with 0. ring. }
  unfold round_half_up. rewrite E. reflexivity.
Qed.

Section Calendar.

Variable toDateString : Z -> string.
Variable toLocaleDateString : Z -> string.

(** C8.  When no session starts and no morning test is taken at or after
    the cutoff [now - days * 86400000], [calculateRecoveryScore] returns
    the sentinel: score 0, zone poor, label "No Data", all four factors 0,
    whatever the history holds before the cutoff. *)
Theorem recovery_no_data_sentinel
    (now : Z) (sessions : list Session) (morningTests : list MorningTestResult)
    (days : Z) :
  (forall s, In s sessions -> (startTime s < now - days * msPerDay)%Z) ->
  (forall t, In t morningTests -> (timestamp t < now - days * msPerDay)%Z) ->
  calculateRecoveryScore toDateString now sessions morningTests days =
  {| score := zero; data_zone := zone_poor; color := "#ef4444";
     label := "No Data";
     data_factors :=
       {| hrvBaseline := zero; restingHrTrend := zero;
          stressHistory := zero; consistency := zero |} |}.
Proof.
  intros Hs Ht. unfold calculateRecoveryScore. cbv zeta.
  rewrite (filter_none (fun s => recent _ (startTime s)) sessions).
  2:{ intros s Hin. unfold recent. apply Z.leb_gt. now apply Hs. }
  rewrite (filter_none (fun t => recent _ (timestamp t)) morningTests).
  2:{ intros t Hin. unfold recent. apply Z.leb_gt. now apply Ht. }
  reflexivity.
Qed.

Lemma consistency_eq (now : Z) (sessions : list Session)
    (morningTests : list MorningTestResult) (days : Z) :
  let cutoff := (now - days * msPerDay)%Z in
  let rs := List.filter (fun s => recent cutoff (startTime s)) sessions in
  let rt := List.filter (fun t => recent cutoff (timestamp t)) morningTests in
  consistency
    (data_factors
       (calculateRecoveryScore toDateString now sessions morningTests days))
  = if Nat.eqb (length rs) 0 && Nat.eqb (length rt) 0 then zero
    else Spec.consistency_of
           (size (Spec.session_days toDateString rs)
            + size (Spec.test_days toDateString rt)) days.
Proof.
  intros cutoff rs rt. unfold calculateRecoveryScore. cbv zeta.
  fold cutoff. fold rs. fold rt.
  destruct (Nat.eqb (length rs) 0 && Nat.eqb (length rt) 0); [reflexivity|].
  repeat match goal with
         | |- context [if ge ?x ?y then _ else _] => destruct (ge x y)
         end; reflexivity.
Qed.

(** C2, amended.  For a window of [days > 0] days, the consistency
    sub-score is computed from the number of distinct calendar days with a
    recent session plus the number of distinct calendar days with a recent
    morning test: that sum is capped at [days], divided by [min(days, 7)],
    scaled by 25, rounded and capped at 25.  The sum is the number of
    distinct active days plus the number of days that have both a session
    and a test, so a day with both counts twice; when no day has both, the
    sub-score is the one of the distinct active days. *)
Theorem consistency_counts_both_collections
    (now : Z) (sessions : list Session) (morningTests : list MorningTestResult)
    (days : Z) :
  (0 < days)%Z ->
  let cutoff := (now - days * msPerDay)%Z in
  let rs := List.filter (fun s => recent cutoff (startTime s)) sessions in
  let rt := List.filter (fun t => recent cutoff (timestamp t)) morningTests in
  let A := Spec.session_days toDateString rs in
  let B := Spec.test_days toDateString rt in
  let c := consistency
             (data_factors
                (calculateRecoveryScore toDateString now sessions
                   morningTests days)) in
  c = Spec.consistency_of (size A + size B) days /\
  (size A + size B = size (A ∪ B) + size (A ∩ B))%nat /\
  (A ## B -> c = Spec.consistency_of (size (A ∪ B)) days) /\
  c = of_Z (Z.min 25
              (round_half_up
                 (inject_Z (Z.min (Z.of_nat (size A + size B)) days)
                  / inject_Z (Z.min days 7) * 25))).
Proof.
  intros Hd cutoff rs rt A B c.
  assert (Hc : c = Spec.consistency_of (size A + size B) days).
  { unfold c. rewrite consistency_eq. fold cutoff. fold rs. fold rt.
    destruct (Nat.eqb (length rs) 0 && Nat.eqb (length rt) 0) eqn:E;
      [|reflexivity].
    apply andb_prop in E. destruct E as [E1 E2].
    apply Nat.eqb_eq, length_zero_iff_nil in E1.
    apply Nat.eqb_eq, length_zero_iff_nil in E2.
    unfold A, B. rewrite E1, E2.
    change (Spec.session_days toDateString []) with (∅ : gset string).
    change (Spec.test_days toDateString []) with (∅ : gset string).
    rewrite size_empty. symmetry. now apply consistency_of_zero. }
  assert (Hie : (size A + size B = size (A ∪ B) + size (A ∩ B))%nat)
    by apply size_union_intersection.
  split; [exact Hc|]. split; [exact Hie|]. split.
  - intros Hdisj. rewrite Hc, Hie.
    assert (E : A ∩ B = ∅) by (now apply disjoint_intersection_L).
    rewrite E, size_empty. now rewrite Nat.add_0_r.
  - rewrite Hc. now apply consistency_of_closed.
Qed.

(** Every trend point carries the score of one and the same call: the
    whole history with a one-day window that ends when the point is
    built. *)
Lemma trend_point_recovery (now : Z) (nowAt : nat -> Z)
    (sessions : list Session) (morningTests : list MorningTestResult)
    (days : Z) (i : nat) (p : TrendPoint) :
  buildTrendData toDateString toLocaleDateString now nowAt sessions
    morningTests days !! i = Some p ->
  recoveryScore p
  = score (calculateRecoveryScore toDateString (nowAt i) sessions
             morningTests 1).
Proof.
  unfold buildTrendData. cbv zeta. rewrite list_lookup_imap.
  destruct (_ !! i) as [e|]; simpl; [|discriminate].
  intros E. inversion E. reflexivity.
Qed.

Lemma trend_points_share_recovery (now : Z)
    (sessions : list Session) (morningTests : list MorningTestResult)
    (days : Z) :
  List.Forall
    (fun p => recoveryScore p
              = score (calculateRecoveryScore toDateString now sessions
                         morningTests 1))
    (buildTrendData toDateString toLocaleDateString now (fun _ => now)
       sessions morningTests days).
Proof.
  apply List.Forall_forall. intros p Hp.
  apply list_elem_of_In, list_elem_of_lookup in Hp. destruct Hp as [i Hi].
  exact (trend_point_recovery now (fun _ => now) _ _ _ i p Hi).
Qed.

End Calendar.

Import Examples.

Lemma recovery_no_data_sentinel_witness :
  score (calculateRecoveryScore utcDateString (at_day 20 12)
           [session_at (at_day 5 8) 60 55 45 80] [test_at (at_day 6 7)] 7)
  = zero.
Proof.
  rewrite (recovery_no_data_sentinel utcDateString (at_day 20 12)
             [session_at (at_day 5 8) 60 55 45 80] [test_at (at_day 6 7)] 7).
  - reflexivity.
  - intros s [<- | []]. vm_compute. reflexivity.
  - intros t [<- | []]. vm_compute. reflexivity.
Defined.

(** C2, counterexample.  A session and a morning test on the same calendar
    day: one distinct active day, for which the claimed count yields a
    sub-score of 4, while the code counts the day twice and returns 7. *)
Lemma consistency_shared_day_counted_twice :
  size (Spec.session_days utcDateString
          [session_at (at_day 20 10) 60 55 45 80]
        ∪ Spec.test_days utcDateString [test_at (at_day 20 10)]) = 1%nat /\
  Spec.consistency_of 1 7 = of_Z 4 /\
  consistency
    (data_factors
       (calculateRecoveryScore utcDateString (at_day 20 12)
          [session_at (at_day 20 10) 60 55 45 80]
          [test_at (at_day 20 10)] 7))
  = of_Z 7 /\
  consistency
    (data_factors
       (calculateRecoveryScore utcDateString (at_day 20 12)
          [session_at (at_day 20 10) 60 55 45 80]
          [test_at (at_day 20 10)] 7))
  <> Spec.consistency_of
       (size (Spec.session_days utcDateString
                [session_at (at_day 20 10) 60 55 45 80]
              ∪ Spec.test_days utcDateString [test_at (at_day 20 10)])) 7.
Proof.
  vm_compute. repeat split. discriminate.
Qed.

Lemma consistency_counts_both_collections_witness :
  consistency
    (data_factors
       (calculateRecoveryScore utcDateString (at_day 20 12)
          [session_at (at_day 20 10) 60 55 45 80]
          [test_at (at_day 19 10)] 7))
  = Spec.consistency_of 2 7.
Proof.
  refine (proj1 (consistency_counts_both_collections utcDateString
                   (at_day 20 12) [session_at (at_day 20 10) 60 55 45 80]
                   [test_at (at_day 19 10)] 7 _)).
  reflexivity.
Defined.

(** C3, the code at a failing input.  History: a session on day 15 and a
    session on day 20, the call at noon of day 20 with a 30-day window.
    Both trend points carry the score 92 of the one-day window that ends at
    the call, which holds the session of day 20 only; with the session of
    day 15 alone in the history its point carries the "No Data" score 0.
    In general every point of a call carries the same score. *)
Theorem trend_recovery_anchored_at_call_time :
  map recoveryScore
    (buildTrendData utcDateString utcDateString (at_day 20 12)
       (fun _ => at_day 20 12)
       [session_at (at_day 15 8) 80 20 15 300;
        session_at (at_day 20 10) 60 55 45 80] [] 30)
  = [of_Z 92; of_Z 92] /\
  map date
    (buildTrendData utcDateString utcDateString (at_day 20 12)
       (fun _ => at_day 20 12)
       [session_at (at_day 15 8) 80 20 15 300;
        session_at (at_day 20 10) 60 55 45 80] [] 30)
  = ["15"; "20"] /\
  map recoveryScore
    (buildTrendData utcDateString utcDateString (at_day 20 12)
       (fun _ => at_day 20 12)
       [session_at (at_day 15 8) 80 20 15 300] [] 30)
  = [zero] /\
  (forall tds tlds now sessions tests days,
     List.Forall
       (fun p => recoveryScore p
                 = score (calculateRecoveryScore tds now sessions tests 1))
       (buildTrendData tds tlds now (fun _ => now) sessions tests days)).
Proof.
  split; [vm_compute; reflexivity|].
  split; [vm_compute; reflexivity|].
  split; [vm_compute; reflexivity|].
  intros. apply trend_points_share_recovery.
Qed.

(** ** Trend direction *)



Example trend_examples :
  getTrendDirection [of_Z 10; of_Z 20] = improving /\
  getTrendDirection [of_Z 20; of_Z 10] = declining /\
  getTrendDirection [of_Z 10; Fin (102 # 10)] = stable /\
  getTrendDirection [of_Z 0; of_Z 20] = improving.
Proof. vm_compute. repeat split. Qed.

End RecoveryFacts.
